(** * The fetch tool of the MCP servers monorepo: content pipeline and pagination

    Shallow embedding of [packages/fetch/src/index.ts]: the HTML
    extraction wrapper [extractContentFromHtml], the retrieval function
    [fetchUrl] with its content classifier, and the handler registered
    for the ["fetch"] tool with its offset-windowed pagination.

    Conventions of the model.
    - A JavaScript string is a sequence of code units; it is modelled by
      [string], one [ascii] per code unit.  Everything proved below is
      by structural recursion on the sequence and never inspects the
      width of a unit.
    - [start_index] and [max_length] are JavaScript numbers.  The
      pagination block is given twice.  [Num.paginate] takes any finite
      number, as a rational: the input schema is [z.number()] and lets
      fractions through.  Its sums are exact sums; a sum of doubles is
      the exact one whenever that is a double, as it is on the integers
      and on the halves used below.  [paginate], [finalContent] and the
      handler take integers, as [Z]; [paginate_integral] shows that
      [paginate] is [Num.paginate] on integral arguments.
    - The platform and the third-party libraries ([fetch], [URL], JSDOM,
      Readability, Turndown) are parameters of the model.  A call may
      throw; it is given as a function into [exn + _].
    - The trace carried by the monad [M] records the two effects this
      file performs itself: the call of [fetch] and its own
      [console.error].  What a library prints on its own account (the
      style-sheet warnings of jsdom, for one) is outside the model, and
      no statement below is about it. *)

From Stdlib Require Import String Ascii ZArith QArith Qround Qminmax List Lia Bool.
From Stdlib Require Import DecimalString DecimalZ DecimalPos.
Import ListNotations.

Local Open Scope string_scope.
Local Open Scope Z_scope.

(** ** JavaScript string primitives *)

Module Js.

(** [s.length] *)
Definition len (s : string) : Z := Z.of_nat (String.length s).

(** The line feed written [\n] in the source. *)
Definition nl : string := String (ascii_of_nat 10) EmptyString.

(** Truthiness of a string: only the empty string is falsy. *)
Definition truthy (s : string) : bool :=
  match s with
  | EmptyString => false
  | String _ _ => true
  end.

(** [String.prototype.slice(start, end)] on integral arguments: a
    negative index counts from the end, both are clamped to
    [0 .. length], and an inverted range is empty. *)
Definition slice (s : string) (start end_ : Z) : string :=
  let n := len s in
  let from := if start <? 0 then Z.max (n + start) 0 else Z.min start n in
  let to := if end_ <? 0 then Z.max (n + end_) 0 else Z.min end_ n in
  if from >=? to then EmptyString
  else String.substring (Z.to_nat from) (Z.to_nat (to - from)) s.

(** [String.prototype.substring(start, end)] on integral arguments:
    both are clamped to [0 .. length] and swapped when inverted. *)
Definition substring (s : string) (start end_ : Z) : string :=
  let n := len s in
  let a := Z.min (Z.max start 0) n in
  let b := Z.min (Z.max end_ 0) n in
  let from := Z.min a b in
  let to := Z.max a b in
  String.substring (Z.to_nat from) (Z.to_nat (to - from)) s.

(** [String.prototype.includes(pat)]: [pat] occurs at some position. *)
Fixpoint includes (s pat : string) : bool :=
  String.prefix pat s ||
  match s with
  | EmptyString => false
  | String _ s' => includes s' pat
  end.

(** [Array.prototype.includes] on an array of strings. *)
Fixpoint array_includes (xs : list string) (x : string) : bool :=
  match xs with
  | [] => false
  | y :: ys => String.eqb y x || array_includes ys x
  end.

(** A template hole [${n}] holding an integral number. *)
Definition show_number (n : Z) : string := NilZero.string_of_int (Z.to_int n).

(** Reading a decimal numeral back, as a caller does with the index
    named in a response. *)
Definition read_number (s : string) : option Z :=
  option_map Z.of_int (NilZero.int_of_string s).

(** White space and line terminators among the units below 256, as
    [String.prototype.trim] strips them. *)
Definition is_white (c : ascii) : bool :=
  let k := nat_of_ascii c in
  ((9 <=? k) && (k <=? 13))%nat || (k =? 32)%nat || (k =? 160)%nat.

Fixpoint trimStart (s : string) : string :=
  match s with
  | EmptyString => EmptyString
  | String c s' => if is_white c then trimStart s' else s
  end.

Fixpoint rev (s : string) : string :=
  match s with
  | EmptyString => EmptyString
  | String c s' => rev s' ++ String c EmptyString
  end.

Definition trimEnd (s : string) : string := rev (trimStart (rev s)).

(** [String.prototype.trim] *)
Definition trim (s : string) : string := trimEnd (trimStart s).

End Js.

(** ** Pagination block of the tool handler *)

Definition NO_MORE_CONTENT : string := "<error>No more content available.</error>".

(** The continuation sentence appended after a full window. *)
Definition truncation_notice (nextStart : Z) : string :=
  Js.nl ++ Js.nl ++
  "<error>Content truncated. Call the fetch tool with a start_index of "
  ++ Js.show_number nextStart ++ " to get more content.</error>".

(** [content.slice(start_index, start_index + max_length)] *)
Definition truncatedContent (content : string) (start_index max_length : Z) : string :=
  Js.slice content start_index (start_index + max_length).

(** The value of [finalContent] when the handler builds its response,
    on integral arguments. *)
Definition finalContent (content : string) (start_index max_length : Z) : string :=
  let originalLength := Js.len content in
  if start_index >=? originalLength then NO_MORE_CONTENT
  else
    let truncatedContent := Js.slice content start_index (start_index + max_length) in
    if negb (Js.truthy truncatedContent) then NO_MORE_CONTENT
    else
      let actualContentLength := Js.len truncatedContent in
      let remainingContent := originalLength - (start_index + actualContentLength) in
      if (actualContentLength =? max_length) && (remainingContent >? 0) then
        let nextStart := start_index + actualContentLength in
        truncatedContent ++ truncation_notice nextStart
      else truncatedContent.

(** The same block with its three outcomes kept apart: which branch ran
    cannot always be read back from the text, because a window of the
    document may itself spell the sentinel.  Integral arguments; see
    [Num.paginate] for the others. *)
Inductive Page : Type :=
| Exhausted
| Window (slice : string) (continuation : option Z).

Definition paginate (content : string) (start_index max_length : Z) : Page :=
  let originalLength := Js.len content in
  if start_index >=? originalLength then Exhausted
  else
    let truncatedContent := Js.slice content start_index (start_index + max_length) in
    if negb (Js.truthy truncatedContent) then Exhausted
    else
      let actualContentLength := Js.len truncatedContent in
      let remainingContent := originalLength - (start_index + actualContentLength) in
      if (actualContentLength =? max_length) && (remainingContent >? 0) then
        Window truncatedContent (Some (start_index + actualContentLength))
      else Window truncatedContent None.

Definition render_page (p : Page) : string :=
  match p with
  | Exhausted => NO_MORE_CONTENT
  | Window slice None => slice
  | Window slice (Some nextStart) => slice ++ truncation_notice nextStart
  end.

(** The numeric constraints of the input schema on integral values:
    [max_length] is [min(1).max(1000000)], [start_index] is [min(0)]. *)
Definition schema_max_length (v : Z) : bool := (1 <=? v) && (v <=? 1000000).
Definition schema_start_index (v : Z) : bool := 0 <=? v.

(** ** The pagination block on numbers that need not be integral *)

Module Num.

(** [ToIntegerOrInfinity] on a finite number: the fraction is dropped. *)
Definition ToInteger (x : Q) : Z :=
  if Qle_bool 0 x then Qfloor x else Qceiling x.

(** [s.slice(start, end)]: both arguments are made integers first. *)
Definition slice (s : string) (start end_ : Q) : string :=
  Js.slice s (ToInteger start) (ToInteger end_).

Inductive Page : Type :=
| Exhausted
| Window (slice : string) (continuation : option Q).

(** Lines 124-144 of the handler; [===] on two numbers is numeric
    equality. *)
Definition paginate (content : string) (start_index max_length : Q) : Page :=
  let originalLength := inject_Z (Js.len content) in
  if Qle_bool originalLength start_index then Exhausted
  else
    let truncatedContent := slice content start_index (start_index + max_length)%Q in
    if negb (Js.truthy truncatedContent) then Exhausted
    else
      let actualContentLength := inject_Z (Js.len truncatedContent) in
      let remainingContent := (originalLength - (start_index + actualContentLength))%Q in
      if Qeq_bool actualContentLength max_length
         && negb (Qle_bool remainingContent 0) then
        Window truncatedContent (Some (start_index + actualContentLength)%Q)
      else Window truncatedContent None.

(** The input schema: [z.number().min(1).max(1000000)] and
    [z.number().min(0)]. *)
Definition schema_max_length (v : Q) : bool :=
  Qle_bool 1 v && Qle_bool v 1000000.
Definition schema_start_index (v : Q) : bool := Qle_bool 0 v.

(** [Number.isInteger] on a finite number. *)
Definition isInteger (v : Q) : bool := Qeq_bool v (inject_Z (Qfloor v)).

End Num.

(** ** Exceptions, effects and the platform *)

(** A thrown value: an [Error] object with its [message], or any other
    value, kept as the text a template hole gives for it. *)
Inductive exn : Type :=
| Error (message : string)
| Thrown (shown : string).

(** [(error as Error).message] inside a template; a value that is not an
    [Error] has no such property. *)
Definition message_of (e : exn) : string :=
  match e with
  | Error message => message
  | Thrown _ => "undefined"
  end.

Inductive event : Type :=
| Request (url userAgent : string)
| ConsoleError (label : string) (error : exn).

(** The calls of [fetch] recorded in a trace, in order. *)
Fixpoint requests (t : list event) : list (string * string) :=
  match t with
  | [] => []
  | Request url userAgent :: t' => (url, userAgent) :: requests t'
  | ConsoleError _ _ :: t' => requests t'
  end.

(** Computations that log events and may throw. *)
Definition M (A : Type) : Type := (list event * (exn + A))%type.

Definition ret {A : Type} (a : A) : M A := ([], inr a).

Definition throw {A : Type} (e : exn) : M A := ([], inl e).

Definition bind {A B : Type} (m : M A) (k : A -> M B) : M B :=
  match m with
  | (t, inl e) => (t, inl e)
  | (t, inr a) => let '(t', r) := k a in ((t ++ t')%list, r)
  end.

Definition try_catch {A : Type} (m : M A) (handler : exn -> M A) : M A :=
  match m with
  | (t, inl e) => let '(t', r) := handler e in ((t ++ t')%list, r)
  | (t, inr a) => (t, inr a)
  end.

(** A library call that returns or throws.  It adds nothing to the
    trace, which holds this file's own effects only. *)
Definition call {A : Type} (r : exn + A) : M A := ([], r).

Definition emit (e : event) : M unit := ([e], inr tt).

Declare Scope js_scope.
Delimit Scope js_scope with js.
Notation "x <- m ;; k" := (bind m (fun x => k))
  (at level 61, m at next level, right associativity) : js_scope.
Notation "m ;; k" := (bind m (fun _ => k))
  (at level 61, right associativity) : js_scope.
Notation "'try' m 'catch' h" := (try_catch m h)
  (at level 62, m at level 61, h at level 61) : js_scope.

(** What the handler reads of a parsed [URL] object. *)
Record URL : Type := { protocol : string }.

(** What [fetchUrl] reads of a [Response]: the status, the
    [content-type] header ([None] when [headers.get] gives [null]) and
    the outcome of [response.text()]. *)
Record Response : Type := {
  status : Z;
  content_type : option string;
  body : exn + string
}.

(** [response.ok]: the status is in the range 200-299. *)
Definition ok (r : Response) : bool := (200 <=? status r) && (status r <=? 299).

(** [new URL(url)] and [fetch(url, { headers, redirect, signal })]; a
    timeout of the request is one of the ways [fetch] throws. *)
Class Network : Type := {
  URL_new : string -> exn + URL;
  fetch : string -> string -> exn + Response
}.

(** The article Readability returns; [content] is [None] when absent. *)
Record Article : Type := { content : option string }.

(** The three stages [extractContentFromHtml] delegates to: [new JSDOM],
    [new Readability(doc, options).parse()] ([None] for a [null]
    article) and [new TurndownService(options).turndown(html)]; the
    options are the fixed ones of the source. *)
Class HtmlLibs : Type := {
  Document : Type;
  JSDOM_new : string -> exn + Document;
  Readability_parse : Document -> exn + option Article;
  turndown : string -> exn + string
}.

(** The tool's result: one text item and the failure indicator. *)
Record ToolResult : Type := { text : string; isError : bool }.

(** ** The pipeline *)

Definition DEFAULT_USER_AGENT_AUTONOMOUS : string :=
  "ModelContextProtocol/1.0 (Autonomous; +https://github.com/modelcontextprotocol/servers)".

Definition PAGE_NOT_SIMPLIFIED : string :=
  "<error>Page failed to be simplified from HTML</error>".

Definition EXTRACTION_FAILED : string :=
  "<error>Failed to extract content from HTML</error>".

(** [!article || !article.content] *)
Definition no_article_content (article : option Article) : bool :=
  match article with
  | None => true
  | Some a =>
      match content a with
      | None => true
      | Some c => negb (Js.truthy c)
      end
  end.

Definition article_content (article : option Article) : string :=
  match article with
  | Some {| content := Some c |} => c
  | _ => EmptyString
  end.

(** The test on [isPageHtml] in [fetchUrl]. *)
Definition isPageHtml (pageRaw contentType : string) : bool :=
  Js.includes (Js.substring pageRaw 0 100) "<html"
  || Js.includes contentType "text/html"
  || negb (Js.truthy contentType).

(** [response.headers.get('content-type') || ''] *)
Definition header_or_empty (h : option string) : string :=
  match h with
  | Some v => if Js.truthy v then v else EmptyString
  | None => EmptyString
  end.

Definition raw_prefix (contentType : string) : string :=
  "Content type " ++ contentType
  ++ " cannot be simplified to markdown, but here is the raw content:" ++ Js.nl.

Section Pipeline.

Context {net : Network} {libs : HtmlLibs}.

Local Open Scope js_scope.

Definition extractContentFromHtml (html : string) : M string :=
  try (
    doc <- call (JSDOM_new html) ;;
    article <- call (Readability_parse doc) ;;
    if no_article_content article then ret PAGE_NOT_SIMPLIFIED
    else
      markdown <- call (turndown (article_content article)) ;;
      ret markdown
  ) catch (fun error =>
    emit (ConsoleError "Error extracting content:" error) ;;
    ret EXTRACTION_FAILED).

Definition fetchUrl (url userAgent : string) (forceRaw : bool) : M (string * string) :=
  try (
    emit (Request url userAgent) ;;
    response <- call (fetch url userAgent) ;;
    if negb (ok response) then
      throw (Error ("Failed to fetch " ++ url ++ " - status code "
                    ++ Js.show_number (status response)))
    else
      let contentType := header_or_empty (content_type response) in
      pageRaw <- call (body response) ;;
      if isPageHtml pageRaw contentType && negb forceRaw then
        content <- extractContentFromHtml pageRaw ;;
        ret (content, EmptyString)
      else
        ret (pageRaw, raw_prefix contentType)
  ) catch (fun error =>
    match error with
    | Error message => throw (Error ("Failed to fetch " ++ url ++ ": " ++ message))
    | Thrown shown => throw (Error ("Failed to fetch " ++ url ++ ": " ++ shown))
    end).

(** The handler registered for the ["fetch"] tool, on arguments the
    input schema has accepted. *)
Definition fetch_tool (url : string) (max_length start_index : Z) (raw : bool)
  : list event * ToolResult :=
  let run : M ToolResult :=
    urlObj <- call (URL_new url) ;;
    if negb (Js.array_includes ["http:"; "https:"] (protocol urlObj)) then
      throw (Error "Only HTTP and HTTPS URLs are supported")
    else
      fetched <- fetchUrl url DEFAULT_USER_AGENT_AUTONOMOUS raw ;;
      let '(content, prefix) := fetched in
      ret {| text := prefix ++ "Contents of " ++ url ++ ":" ++ Js.nl
                     ++ finalContent content start_index max_length;
             isError := false |}
  in
  match run with
  | (t, inr result) => (t, result)
  | (t, inl error) =>
      (t, {| text := "Failed to fetch content: " ++ message_of error;
             isError := true |})
  end.

End Pipeline.

(** [String.prototype.toLowerCase] on the letters A-Z; used only to
    phrase a case-insensitive reading of the classifier. *)
Definition lower_unit (c : ascii) : ascii :=
  let k := nat_of_ascii c in
  if ((65 <=? k) && (k <=? 90))%nat then ascii_of_nat (k + 32) else c.

Fixpoint toLowerCase (s : string) : string :=
  match s with
  | EmptyString => EmptyString
  | String c s' => String (lower_unit c) (toLowerCase s')
  end.

(** When one of the stages of [extractContentFromHtml] that really runs
    on [html] throws [e]. *)
Inductive stage_throws {libs : HtmlLibs} (html : string) (e : exn) : Prop :=
| parsing_throws :
    JSDOM_new html = inl e -> stage_throws html e
| extraction_throws (doc : Document) :
    JSDOM_new html = inr doc ->
    Readability_parse doc = inl e -> stage_throws html e
| conversion_throws (doc : Document) (article : option Article) :
    JSDOM_new html = inr doc ->
    Readability_parse doc = inr article ->
    no_article_content article = false ->
    turndown (article_content article) = inl e -> stage_throws html e.

(** The address is well formed with an allowed scheme, and the server
    answers it with a success status and a readable body. *)
Definition serves {net : Network} (url : string) (response : Response) (pageRaw : string)
  : Prop :=
  (exists urlObj : URL,
      URL_new url = inr urlObj /\
      Js.array_includes ["http:"; "https:"] (protocol urlObj) = true) /\
  fetch url DEFAULT_USER_AGENT_AUTONOMOUS = inr response /\
  ok response = true /\
  body response = inr pageRaw.

(** The first line of a successful response. *)
Definition header (url : string) : string := "Contents of " ++ url ++ ":" ++ Js.nl.

(** The address parses and its scheme is one of the two allowed. *)
Definition accepted {net : Network} (url : string) : Prop :=
  exists urlObj : URL,
    URL_new url = inr urlObj /\
    Js.array_includes ["http:"; "https:"] (protocol urlObj) = true.

(** What the [catch] clause of [fetchUrl] puts after the address:
    [error.message] for an [Error], the value itself otherwise. *)
Definition cause_of (e : exn) : string :=
  match e with
  | Error message => message
  | Thrown shown => shown
  end.

(** ** A small concrete platform, for running the model *)

Module Demo.

Definition page : string :=
  "<html><body><article>Hello, world.</article></body></html>".

Definition url : string := "http://example.com/".

Definition response : Response :=
  {| status := 200; content_type := Some "text/html"; body := inr page |}.

(** Recognises three schemes and refuses everything else. *)
Definition url_new (u : string) : exn + URL :=
  if String.prefix "http://" u then inr {| protocol := "http:" |}
  else if String.prefix "https://" u then inr {| protocol := "https:" |}
  else if String.prefix "ftp://" u then inr {| protocol := "ftp:" |}
  else inl (Error "Invalid URL").

(** Serves [page] as [text/html] at every address. *)
Definition net : Network := {|
  URL_new := url_new;
  fetch := fun _ _ => inr response
|}.

(** Keeps the document text as it is. *)
Definition libs : HtmlLibs := {|
  Document := string;
  JSDOM_new := fun html => inr html;
  Readability_parse := fun doc => inr (Some {| content := Some doc |});
  turndown := fun html => inr html
|}.

(** The same, with a converter that always throws. *)
Definition broken_libs : HtmlLibs := {|
  Document := string;
  JSDOM_new := fun html => inr html;
  Readability_parse := fun doc => inr (Some {| content := Some doc |});
  turndown := fun _ => inl (Error "conversion failed")
|}.

(** A network whose [fetch] has the given outcome at every address. *)
Definition answering (outcome : exn + Response) : Network := {|
  URL_new := url_new;
  fetch := fun _ _ => outcome
|}.

Definition not_found : Response :=
  {| status := 404; content_type := Some "text/html"; body := inr page |}.

Definition json : Response :=
  {| status := 200; content_type := Some "application/json";
     body := inr "[1, 2, 3]" |}.

Definition undeclared : Response :=
  {| status := 200; content_type := None; body := inr "plain words" |}.

(** Libraries whose extractor finds no article. *)
Definition no_article_libs : HtmlLibs := {|
  Document := string;
  JSDOM_new := fun html => inr html;
  Readability_parse := fun _ => inr None;
  turndown := fun html => inr html
|}.

End Demo.

(** ** Facts about the string primitives *)

Lemma len_nonneg (s : string) : 0 <= Js.len s.
Proof. unfold Js.len. lia. Qed.

Lemma len_empty_iff (s : string) : Js.len s = 0 <-> s = EmptyString.
Proof.
  unfold Js.len. destruct s; simpl; split; intro H;
    try reflexivity; try discriminate; lia.
Qed.

Lemma truthy_false_iff (s : string) : Js.truthy s = false <-> s = EmptyString.
Proof. destruct s; simpl; split; congruence. Qed.

Lemma length_substring (s : string) :
  forall n m : nat,
    String.length (String.substring n m s) = Nat.min m (String.length s - n).
Proof.
  induction s as [| c s IH]; intros [| n] [| m]; simpl; try reflexivity.
  - rewrite IH. now rewrite Nat.sub_0_r.
  - rewrite IH. reflexivity.
  - rewrite IH. reflexivity.
Qed.

Lemma finalContent_render (content : string) (start_index max_length : Z) :
  finalContent content start_index max_length
  = render_page (paginate content start_index max_length).
Proof.
  unfold finalContent, paginate.
  destruct (start_index >=? Js.len content); [reflexivity |].
  destruct (negb _); [reflexivity |].
  destruct (_ && _); reflexivity.
Qed.


Lemma substring_zero (s : string) : forall n : nat, String.substring n 0 s = EmptyString.
Proof.
  induction s as [| c s IH]; intros [| n]; simpl; auto.
Qed.

(** Inside the text and with a window that is not negative, [slice]
    starts at [start] and takes what is left of the window. *)
Lemma slice_in_range (c : string) (s m : Z) :
  0 <= s < Js.len c -> 0 <= m ->
  Js.slice c s (s + m)
  = String.substring (Z.to_nat s) (Z.to_nat (Z.min m (Js.len c - s))) c.
Proof.
  intros Hs Hm. unfold Js.slice.
  destruct (Z.ltb_spec s 0) as [? | _]; [lia |].
  destruct (Z.ltb_spec (s + m) 0) as [? | _]; [lia |].
  destruct (Z.geb_spec (Z.min s (Js.len c)) (Z.min (s + m) (Js.len c))) as [Hge | Hlt].
  - replace (Z.min m (Js.len c - s)) with 0 by lia.
    simpl. now rewrite substring_zero.
  - f_equal; lia.
Qed.

Lemma len_slice_in_range (c : string) (s m : Z) :
  0 <= s < Js.len c -> 0 <= m ->
  Js.len (Js.slice c s (s + m)) = Z.min m (Js.len c - s).
Proof.
  intros Hs Hm. rewrite slice_in_range by assumption.
  unfold Js.len in *. rewrite length_substring. lia.
Qed.

(** Whatever the window, a slice taken from a start inside the text is
    the part of the text that begins there. *)
Lemma slice_is_substring (c : string) (s e : Z) :
  0 <= s < Js.len c ->
  Js.slice c s e
  = String.substring (Z.to_nat s) (String.length (Js.slice c s e)) c.
Proof.
  intros Hs. unfold Js.slice.
  destruct (Z.ltb_spec s 0) as [? | _]; [lia |].
  replace (Z.min s (Js.len c)) with s by lia.
  set (to := if e <? 0 then Z.max (Js.len c + e) 0 else Z.min e (Js.len c)).
  assert (Hto : to <= Js.len c) by (subst to; destruct (Z.ltb_spec e 0); lia).
  destruct (Z.geb_spec s to) as [Hge | Hlt].
  - simpl. now rewrite substring_zero.
  - rewrite length_substring. f_equal. unfold Js.len in *. lia.
Qed.

(** The three outcomes of the pagination block, under the conditions
    that select them. *)
Lemma paginate_exhausted (c : string) (s m : Z) :
  Js.len c <= s -> paginate c s m = Exhausted.
Proof.
  intros H. unfold paginate.
  destruct (Z.geb_spec s (Js.len c)); [reflexivity | lia].
Qed.

Lemma paginate_in_range (c : string) (s m : Z) :
  0 <= s < Js.len c -> 1 <= m ->
  let slice := truncatedContent c s m in
  slice <> EmptyString /\
  paginate c s m
  = Window slice
      (if (Js.len slice =? m) && (Js.len c - (s + Js.len slice) >? 0)
       then Some (s + Js.len slice) else None).
Proof.
  intros Hs Hm slice.
  assert (Hlen : Js.len slice = Z.min m (Js.len c - s))
    by (apply len_slice_in_range; lia).
  assert (Hne : slice <> EmptyString).
  { intros E. apply len_empty_iff in E. lia. }
  split; [exact Hne |].
  unfold paginate. fold (truncatedContent c s m). fold slice.
  destruct (Z.geb_spec s (Js.len c)); [lia |].
  destruct (Js.truthy slice) eqn:T.
  - simpl. destruct (_ && _); reflexivity.
  - apply truthy_false_iff in T. contradiction.
Qed.

(** On arguments the schema accepts, a start inside the text never
    gives an empty slice: the emptiness test of the block cannot fire. *)
Lemma schema_slice_not_empty (c : string) (s m : Z) :
  schema_max_length m = true -> schema_start_index s = true ->
  s < Js.len c -> truncatedContent c s m <> EmptyString.
Proof.
  unfold schema_max_length, schema_start_index. intros Hm Hs Hlt.
  apply andb_true_iff in Hm as [Hm _].
  apply Z.leb_le in Hm. apply Z.leb_le in Hs.
  apply (paginate_in_range c s m); lia.
Qed.

Lemma paginate_window_inv (c : string) (s m : Z) (sl : string) (k : option Z) :
  paginate c s m = Window sl k ->
  s < Js.len c /\ sl = truncatedContent c s m /\ sl <> EmptyString /\
  k = (if (Js.len sl =? m) && (Js.len c - (s + Js.len sl) >? 0)
       then Some (s + Js.len sl) else None).
Proof.
  unfold paginate. fold (truncatedContent c s m).
  destruct (Z.geb_spec s (Js.len c)); [discriminate |].
  destruct (Js.truthy (truncatedContent c s m)) eqn:T; simpl; [| discriminate].
  assert (truncatedContent c s m <> EmptyString)
    by (intros E; rewrite E in T; discriminate).
  destruct (_ && _) eqn:B; intros E; injection E as <- <-; rewrite B; auto.
Qed.

(** ** Pagination *)

Lemma append_empty_r (a : string) : a ++ EmptyString = a.
Proof. induction a as [| x a IH]; simpl; [reflexivity | now rewrite IH]. Qed.

Lemma append_self_inv (a b : string) : a = a ++ b -> b = EmptyString.
Proof.
  induction a as [| x a IH]; simpl; intros H.
  - now symmetry.
  - injection H as H. auto.
Qed.

(** The decimal numeral of an index reads back as that index. *)
Lemma read_show_number (n : Z) : Js.read_number (Js.show_number n) = Some n.
Proof.
  unfold Js.read_number, Js.show_number.
  rewrite NilZero.isi.
  - simpl. now rewrite DecimalZ.of_to.
  - destruct n; simpl; intros [= H]. now apply Unsigned.to_uint_nonnil in H.
  - destruct n; simpl; intros [= H]. now apply Unsigned.to_uint_nonnil in H.
Qed.

(** C1. For a start index inside the rendered text (and a window size
    the schema accepts), the output is the slice, and it carries a
    continuation, naming [start_index + length slice] as the next start
    index, if and only if the slice is exactly [max_length] long and
    text remains beyond it.  In the text returned, the continuation is
    the instruction sentence after the slice, with the index in decimal
    notation; without it the text is the slice alone. *)
Theorem continuation_iff (content : string) (start_index max_length : Z) :
  0 <= start_index < Js.len content -> 1 <= max_length ->
  let slice := truncatedContent content start_index max_length in
  let nextStartIndex := start_index + Js.len slice in
  let instruction :=
    Js.nl ++ Js.nl ++
    "<error>Content truncated. Call the fetch tool with a start_index of "
    ++ Js.show_number nextStartIndex ++ " to get more content.</error>" in
  (exists continuation : option Z,
    paginate content start_index max_length = Window slice continuation /\
    finalContent content start_index max_length
    = slice ++ match continuation with
               | Some nextStartIndex => truncation_notice nextStartIndex
               | None => EmptyString
               end /\
    (continuation = Some (start_index + Js.len slice) <->
       Js.len slice = max_length /\ start_index + Js.len slice < Js.len content) /\
    (continuation <> None <->
       Js.len slice = max_length /\ start_index + Js.len slice < Js.len content)) /\
  (finalContent content start_index max_length = slice ++ instruction <->
     Js.len slice = max_length /\ nextStartIndex < Js.len content) /\
  (finalContent content start_index max_length = slice <->
     ~ (Js.len slice = max_length /\ nextStartIndex < Js.len content)) /\
  instruction <> EmptyString /\
  Js.read_number (Js.show_number nextStartIndex) = Some nextStartIndex.
Proof.
  intros Hs Hm slice nextStartIndex instruction.
  destruct (paginate_in_range content start_index max_length Hs Hm) as [_ Hp].
  fold slice in Hp.
  assert (Hi : instruction <> EmptyString) by discriminate.
  assert (Hf : finalContent content start_index max_length
               = if (Js.len slice =? max_length)
                    && (Js.len content - (start_index + Js.len slice) >? 0)
                 then slice ++ instruction else slice).
  { rewrite finalContent_render, Hp. destruct (_ && _); reflexivity. }
  split; [| split; [| split; [| split]]].
  - eexists. split; [exact Hp |]. split.
    + rewrite Hf. destruct (_ && _); [reflexivity | now rewrite append_empty_r].
    + destruct (Z.eqb_spec (Js.len slice) max_length) as [E | E];
        destruct (Z.gtb_spec (Js.len content - (start_index + Js.len slice)) 0) as [G | G];
        simpl; (split; split; intros H; try discriminate; try congruence; try lia;
                try (split; lia)).
  - rewrite Hf. subst nextStartIndex.
    destruct (Z.eqb_spec (Js.len slice) max_length) as [E | E];
      destruct (Z.gtb_spec (Js.len content - (start_index + Js.len slice)) 0) as [G | G];
      simpl; split; intros H; try reflexivity; try (split; lia); try lia;
      try (apply append_self_inv in H; contradiction).
  - rewrite Hf. subst nextStartIndex.
    destruct (Z.eqb_spec (Js.len slice) max_length) as [E | E];
      destruct (Z.gtb_spec (Js.len content - (start_index + Js.len slice)) 0) as [G | G];
      simpl; split; intros H; try reflexivity; try lia;
      try (symmetry in H; apply append_self_inv in H; contradiction);
      try (exfalso; apply H; split; lia).
  - exact Hi.
  - apply read_show_number.
Qed.

Lemma continuation_iff_witness :
  0 <= 2 < Js.len "abcdefghij" /\ 1 <= 3 /\
  paginate "abcdefghij" 2 3 = Window "cde" (Some 5) /\
  finalContent "abcdefghij" 2 3
  = "cde" ++ Js.nl ++ Js.nl ++
    "<error>Content truncated. Call the fetch tool with a start_index of 5 to get more content.</error>" /\
  Js.read_number "5" = Some 5.
Proof.
  assert (H1 : 0 <= 2 < Js.len "abcdefghij") by (unfold Js.len; simpl; lia).
  assert (H2 : 1 <= 3) by lia.
  split; [exact H1 |]. split; [exact H2 |].
  destruct (continuation_iff "abcdefghij" 2 3 H1 H2) as (_ & Ht & _ & _ & Hr).
  split; [reflexivity |]. split; [| exact Hr].
  apply Ht. split; reflexivity.
Defined.

(** *** Integral and fractional arguments *)

Lemma ToInteger_inject (z : Z) : Num.ToInteger (inject_Z z) = z.
Proof.
  unfold Num.ToInteger.
  destruct (Qle_bool 0 (inject_Z z)); [apply Qfloor_Z | apply Qceiling_Z].
Qed.

Lemma Qle_bool_inject (a b : Z) : Qle_bool (inject_Z a) (inject_Z b) = (a <=? b).
Proof. unfold Qle_bool. simpl. now rewrite !Z.mul_1_r. Qed.

Lemma Qeq_bool_inject (a b : Z) : Qeq_bool (inject_Z a) (inject_Z b) = (a =? b).
Proof. unfold Qeq_bool. simpl. now rewrite !Z.mul_1_r. Qed.

(** On integral arguments the block on numbers is the block on
    integers, branch for branch. *)
Lemma paginate_integral (c : string) (s m : Z) :
  Num.paginate c (inject_Z s) (inject_Z m)
  = match paginate c s m with
    | Exhausted => Num.Exhausted
    | Window sl k => Num.Window sl (option_map inject_Z k)
    end.
Proof.
  unfold Num.paginate, paginate, Num.slice.
  rewrite <- !inject_Z_plus, !ToInteger_inject, Qle_bool_inject, Z.geb_leb.
  destruct (Js.len c <=? s); [reflexivity |].
  destruct (negb (Js.truthy (Js.slice c s (s + m)))); [reflexivity |].
  rewrite Qeq_bool_inject.
  unfold Qminus. rewrite <- inject_Z_opp, <- inject_Z_plus.
  change 0%Q with (inject_Z 0). rewrite Qle_bool_inject.
  replace (negb (Js.len c + - (s + Js.len (Js.slice c s (s + m))) <=? 0))
    with (Js.len c - (s + Js.len (Js.slice c s (s + m))) >? 0).
  - destruct (_ && _); reflexivity.
  - rewrite Z.gtb_ltb, Z.ltb_antisym. reflexivity.
Qed.

(** C2, as the claim states it, fails on arguments the schema accepts:
    [slice] drops the fraction of both ends of the window.  With
    [max_length] 2.5 from the start of ten units the slice has 2 units,
    not 2.5; with [start_index] 8.5 and [max_length] 5 it has 2 units,
    not 1.5. *)
Lemma fractional_window_length :
  (Num.schema_start_index 0 = true /\ Num.schema_max_length (5 # 2) = true /\
   (0 <= 0 < inject_Z (Js.len "abcdefghij"))%Q /\
   Num.paginate "abcdefghij" 0 (5 # 2) = Num.Window "ab" None /\
   ~ (inject_Z (Js.len "ab")
      == Qmin (5 # 2) (inject_Z (Js.len "abcdefghij") - 0))%Q) /\
  (Num.schema_start_index (17 # 2) = true /\ Num.schema_max_length 5 = true /\
   (0 <= 17 # 2 < inject_Z (Js.len "abcdefghij"))%Q /\
   Num.paginate "abcdefghij" (17 # 2) 5 = Num.Window "ij" None /\
   ~ (inject_Z (Js.len "ij")
      == Qmin 5 (inject_Z (Js.len "abcdefghij") - (17 # 2)))%Q).
Proof.
  repeat split; try reflexivity; try discriminate;
    vm_compute; intros H; discriminate H.
Qed.

(** C2, amended. For an integral start index inside the rendered text
    and an integral window size (at least 1, as the schema requires),
    pagination returns a slice whose length is
    [min max_length (length text - start_index)]. *)
Theorem integral_slice_length (content : string) (start_index max_length : Z) :
  0 <= start_index < Js.len content -> 1 <= max_length ->
  exists (slice : string) (continuation : option Z),
    Num.paginate content (inject_Z start_index) (inject_Z max_length)
    = Num.Window slice (option_map inject_Z continuation) /\
    paginate content start_index max_length = Window slice continuation /\
    Js.len slice = Z.min max_length (Js.len content - start_index).
Proof.
  intros Hs Hm.
  destruct (paginate_in_range content start_index max_length Hs Hm) as [_ Hp].
  do 2 eexists. split; [| split; [exact Hp |]].
  - rewrite paginate_integral, Hp. reflexivity.
  - apply len_slice_in_range; lia.
Qed.

Lemma integral_slice_length_witness :
  0 <= 8 < Js.len "abcdefghij" /\ 1 <= 5 /\
  exists (slice : string) (continuation : option Z),
    Num.paginate "abcdefghij" (inject_Z 8) (inject_Z 5)
    = Num.Window slice (option_map inject_Z continuation) /\
    paginate "abcdefghij" 8 5 = Window slice continuation /\
    Js.len slice = Z.min 5 (Js.len "abcdefghij" - 8).
Proof.
  assert (H1 : 0 <= 8 < Js.len "abcdefghij") by (unfold Js.len; simpl; lia).
  assert (H2 : 1 <= 5) by lia.
  split; [exact H1 |]. split; [exact H2 |].
  exact (integral_slice_length "abcdefghij" 8 5 H1 H2).
Defined.

(** C4, as the claim states it, fails: a slice made of white space only
    is empty after trimming, yet it is returned as the slice. *)
Lemma blank_slice_is_returned :
  0 <= 0 < Js.len "   " /\
  Js.trim (truncatedContent "   " 0 5) = EmptyString /\
  paginate "   " 0 5 = Window "   " None /\
  finalContent "   " 0 5 = "   " /\
  finalContent "   " 0 5 <> NO_MORE_CONTENT.
Proof.
  repeat split; try reflexivity; try discriminate;
    unfold Js.len; simpl; lia.
Qed.

(** C4, amended. For a start index inside the text, the sentinel stands
    in for the slice exactly when the slice is the empty string; no
    trimming is applied, and any other slice is returned as it is. *)
Theorem empty_slice_sentinel (content : string) (start_index max_length : Z) :
  0 <= start_index < Js.len content ->
  let slice := truncatedContent content start_index max_length in
  (slice = EmptyString ->
     paginate content start_index max_length = Exhausted /\
     finalContent content start_index max_length = NO_MORE_CONTENT) /\
  (slice <> EmptyString ->
     exists continuation : option Z,
       paginate content start_index max_length = Window slice continuation).
Proof.
  intros Hs slice. unfold paginate, finalContent.
  fold (truncatedContent content start_index max_length). fold slice.
  destruct (Z.geb_spec start_index (Js.len content)); [lia |].
  split.
  - intros E. rewrite E. simpl. auto.
  - intros NE. destruct slice as [| a r] eqn:E; [contradiction |].
    simpl. destruct (_ && _); eexists; reflexivity.
Qed.

Lemma empty_slice_sentinel_witness :
  0 <= 1 < Js.len "abc" /\
  (truncatedContent "abc" 1 0 = EmptyString ->
     paginate "abc" 1 0 = Exhausted /\
     finalContent "abc" 1 0 = NO_MORE_CONTENT) /\
  (truncatedContent "abc" 1 0 <> EmptyString ->
     exists continuation : option Z,
       paginate "abc" 1 0 = Window (truncatedContent "abc" 1 0) continuation).
Proof.
  assert (H1 : 0 <= 1 < Js.len "abc") by (unfold Js.len; simpl; lia).
  split; [exact H1 |].
  exact (empty_slice_sentinel "abc" 1 0 H1).
Defined.

(** C9. A continuation names a next start index strictly inside the
    rendered text, so the follow-up call with that index on the same
    text takes the window branch and returns a slice that is not empty. *)
Theorem continuation_follow_up
  (content : string) (start_index max_length : Z) (slice : string) (nextStartIndex : Z) :
  0 <= start_index ->
  paginate content start_index max_length = Window slice (Some nextStartIndex) ->
  0 < nextStartIndex < Js.len content /\
  forall max_length' : Z, 1 <= max_length' ->
    exists (slice' : string) (continuation' : option Z),
      paginate content nextStartIndex max_length' = Window slice' continuation' /\
      slice' <> EmptyString.
Proof.
  intros Hs Hp.
  apply paginate_window_inv in Hp as (Hlt & _ & Hne & Hk).
  assert (Hpos : 0 < Js.len slice).
  { destruct (Z.eq_dec (Js.len slice) 0) as [Z0 | NZ].
    - apply len_empty_iff in Z0. contradiction.
    - pose proof (len_nonneg slice). lia. }
  destruct (Z.eqb_spec (Js.len slice) max_length) as [E | E]; [| discriminate].
  destruct (Z.gtb_spec (Js.len content - (start_index + Js.len slice)) 0) as [G | G];
    [| discriminate].
  simpl in Hk. injection Hk as ->.
  assert (Hn : 0 < start_index + Js.len slice < Js.len content) by lia.
  split; [exact Hn |].
  intros m' Hm'.
  destruct (paginate_in_range content (start_index + Js.len slice) m') as [Hne' Hp']; try lia.
  do 2 eexists. split; [exact Hp' | exact Hne'].
Qed.

Lemma continuation_follow_up_witness :
  0 <= 2 /\
  paginate "abcdefghij" 2 3 = Window "cde" (Some 5) /\
  0 < 5 < Js.len "abcdefghij" /\
  forall max_length' : Z, 1 <= max_length' ->
    exists (slice' : string) (continuation' : option Z),
      paginate "abcdefghij" 5 max_length' = Window slice' continuation' /\
      slice' <> EmptyString.
Proof.
  assert (H1 : 0 <= 2) by lia.
  assert (H2 : paginate "abcdefghij" 2 3 = Window "cde" (Some 5)) by reflexivity.
  split; [exact H1 |]. split; [exact H2 |].
  exact (continuation_follow_up "abcdefghij" 2 3 "cde" 5 H1 H2).
Defined.

(** ** The classifier *)

Lemma prefix_app (p b : string) : String.prefix p (p ++ b) = true.
Proof.
  induction p as [| a p IH]; simpl.
  - destruct b; reflexivity.
  - destruct (ascii_dec a a); [exact IH | contradiction].
Qed.

Lemma includes_prefix (s pat : string) :
  String.prefix pat s = true -> Js.includes s pat = true.
Proof. destruct s; simpl; intros ->; reflexivity. Qed.

Lemma includes_app (a pat b : string) : Js.includes (a ++ pat ++ b) pat = true.
Proof.
  induction a as [| x a IH]; simpl.
  - apply includes_prefix, prefix_app.
  - rewrite IH. apply orb_true_r.
Qed.

Lemma substring_0_min (s : string) :
  forall k : nat,
    String.substring 0 (Nat.min k (String.length s)) s = String.substring 0 k s.
Proof.
  induction s as [| c s IH]; intros [| k]; simpl; try reflexivity.
  now rewrite IH.
Qed.

(** [pageRaw.substring(0, 100)] is the first hundred units. *)
Lemma substring_first_100 (s : string) :
  Js.substring s 0 100 = String.substring 0 100 s.
Proof.
  unfold Js.substring. pose proof (len_nonneg s) as Hn.
  replace (Z.min (Z.max 0 0) (Js.len s)) with 0 by lia.
  replace (Z.min 0 (Z.min (Z.max 100 0) (Js.len s))) with 0 by lia.
  rewrite <- (substring_0_min s 100). f_equal. unfold Js.len in *. lia.
Qed.

Lemma substring_0_app (a b : string) :
  forall n : nat, (String.length a <= n)%nat ->
    String.substring 0 n (a ++ b) = a ++ String.substring 0 (n - String.length a) b.
Proof.
  induction a as [| x a IH]; intros n Hn; simpl in *.
  - now rewrite Nat.sub_0_r.
  - destruct n as [| n]; [lia |]. simpl. rewrite IH by lia. reflexivity.
Qed.

Lemma append_assoc (a b c : string) : (a ++ b) ++ c = a ++ b ++ c.
Proof. induction a as [| x a IH]; simpl; [reflexivity | now rewrite IH]. Qed.

Lemma length_append (a b : string) :
  String.length (a ++ b) = (String.length a + String.length b)%nat.
Proof. induction a as [| x a IH]; simpl; [reflexivity | now rewrite IH]. Qed.

(** C5, as the claim states it, fails: an upper-case opener at the very
    start of the body is not seen by the first rule, and with a declared
    non-markup type the page is not classified as markup. *)
Lemma upper_case_opener_not_matched :
  Js.includes (toLowerCase (Js.substring "<HTML><BODY>Hi</BODY></HTML>" 0 100)) "<html"
  = true /\
  Js.includes (Js.substring "<HTML><BODY>Hi</BODY></HTML>" 0 100) "<html" = false /\
  isPageHtml "<HTML><BODY>Hi</BODY></HTML>" "application/json" = false.
Proof. repeat split; reflexivity. Qed.

(** C5, amended. The first rule looks for the lower-case opener
    [<html], letter for letter: every body in which it occurs within
    the first hundred units is classified as markup, whatever content
    type was declared. *)
Theorem html_opener_rule (before after contentType : string) :
  Js.len before + Js.len "<html" <= 100 ->
  Js.includes (Js.substring (before ++ "<html" ++ after) 0 100) "<html" = true /\
  isPageHtml (before ++ "<html" ++ after) contentType = true.
Proof.
  intros H.
  assert (E : Js.includes (Js.substring (before ++ "<html" ++ after) 0 100) "<html" = true).
  { rewrite substring_first_100, <- append_assoc.
    unfold Js.len in H. rewrite substring_0_app
      by (rewrite length_append; apply Nat2Z.inj_le; rewrite Nat2Z.inj_add; simpl in *; lia).
    rewrite append_assoc. apply includes_app. }
  split; [exact E |].
  unfold isPageHtml. rewrite E. reflexivity.
Qed.

Lemma html_opener_rule_witness :
  Js.len "<!DOCTYPE html>" + Js.len "<html" <= 100 /\
  Js.includes (Js.substring ("<!DOCTYPE html>" ++ "<html" ++ " lang=en><body/></html>") 0 100)
    "<html" = true /\
  isPageHtml ("<!DOCTYPE html>" ++ "<html" ++ " lang=en><body/></html>") "application/json"
  = true.
Proof.
  assert (H : Js.len "<!DOCTYPE html>" + Js.len "<html" <= 100)
    by (unfold Js.len; simpl; lia).
  split; [exact H |].
  exact (html_opener_rule "<!DOCTYPE html>" " lang=en><body/></html>" "application/json" H).
Defined.

(** C6, as the claim states it, fails: a body that opens with [<html]
    is classified as markup although a non-markup type is declared. *)
Lemma declared_json_classified_markup :
  Js.truthy "application/json" = true /\
  Js.includes "application/json" "text/html" = false /\
  isPageHtml "<html><body>{}</body></html>" "application/json" = true.
Proof. repeat split; reflexivity. Qed.

(** C6, amended. When a content type is declared and does not contain
    [text/html], the classifier answers markup exactly when the first
    hundred units of the body contain [<html], and other content
    exactly when they do not. *)
Theorem declared_other_type (pageRaw contentType : string) :
  Js.truthy contentType = true ->
  Js.includes contentType "text/html" = false ->
  isPageHtml pageRaw contentType = Js.includes (Js.substring pageRaw 0 100) "<html" /\
  (isPageHtml pageRaw contentType = false <->
   Js.includes (Js.substring pageRaw 0 100) "<html" = false).
Proof.
  intros T I. unfold isPageHtml. rewrite T, I. simpl.
  rewrite !orb_false_r. split; [reflexivity | tauto].
Qed.

Lemma declared_other_type_witness :
  Js.truthy "application/json" = true /\
  Js.includes "application/json" "text/html" = false /\
  isPageHtml "{}" "application/json" = Js.includes (Js.substring "{}" 0 100) "<html" /\
  (isPageHtml "{}" "application/json" = false <->
   Js.includes (Js.substring "{}" 0 100) "<html" = false).
Proof.
  split; [reflexivity |]. split; [reflexivity |].
  exact (declared_other_type "{}" "application/json" eq_refl eq_refl).
Defined.

(** ** The pipeline and the handler *)

Section PipelineFacts.

Context {net : Network} {libs : HtmlLibs}.

(** A stage that throws ends in the [catch] clause of
    [extractContentFromHtml]: the error is logged and the marker is the
    value returned. *)
Lemma extract_catches (html : string) (e : exn) :
  stage_throws html e ->
  extractContentFromHtml html
  = ([ConsoleError "Error extracting content:" e], inr EXTRACTION_FAILED).
Proof.
  intros [Hdom | doc Hdom Hread | doc article Hdom Hread Hart Hturn];
    unfold extractContentFromHtml, call, bind, try_catch; rewrite Hdom.
  - reflexivity.
  - simpl. rewrite Hread. reflexivity.
  - simpl. rewrite Hread, Hart. unfold bind. rewrite Hturn. reflexivity.
Qed.

(** [extractContentFromHtml] returns on every input. *)
Lemma extract_never_throws (html : string) :
  exists (t : list event) (content : string),
    extractContentFromHtml html = (t, inr content).
Proof.
  unfold extractContentFromHtml, call, bind, try_catch.
  destruct (JSDOM_new html) as [e | doc]; simpl; [eauto |].
  destruct (Readability_parse doc) as [e | article]; simpl; [eauto |].
  destruct (no_article_content article); simpl; [eauto |].
  destruct (turndown (article_content article)); simpl; eauto.
Qed.

(** With [forceRaw], [fetchUrl] hands back the body as received. *)
Lemma fetchUrl_raw (url userAgent : string) (response : Response) (pageRaw : string) :
  fetch url userAgent = inr response ->
  ok response = true ->
  body response = inr pageRaw ->
  fetchUrl url userAgent true
  = ([Request url userAgent],
     inr (pageRaw, raw_prefix (header_or_empty (content_type response)))).
Proof.
  intros Hf Hok Hb. unfold fetchUrl, call, bind, try_catch, emit.
  rewrite Hf, Hok. simpl. rewrite Hb. simpl.
  rewrite andb_false_r. reflexivity.
Qed.

(** Without it, a body classified as markup goes through extraction. *)
Lemma fetchUrl_markup (url userAgent : string) (response : Response) (pageRaw : string)
  (t : list event) (content : string) :
  fetch url userAgent = inr response ->
  ok response = true ->
  body response = inr pageRaw ->
  isPageHtml pageRaw (header_or_empty (content_type response)) = true ->
  extractContentFromHtml pageRaw = (t, inr content) ->
  fetchUrl url userAgent false
  = (Request url userAgent :: t, inr (content, EmptyString)).
Proof.
  intros Hf Hok Hb Hh Hx. unfold fetchUrl, call, bind, try_catch, emit.
  rewrite Hf, Hok. simpl. rewrite Hb. simpl. rewrite Hh. simpl.
  unfold bind. rewrite Hx. simpl. rewrite app_nil_r. reflexivity.
Qed.

(** Whatever [fetchUrl] throws is an [Error] object, so the handler's
    [catch] clause always finds a [message]. *)
Lemma fetchUrl_throws_Error (url userAgent : string) (forceRaw : bool)
  (t : list event) (e : exn) :
  fetchUrl url userAgent forceRaw = (t, inl e) ->
  exists message : string, e = Error message.
Proof.
  unfold fetchUrl, try_catch.
  match goal with |- context [bind ?m ?k] => destruct (bind m k) as [t0 [e0 | v]] end.
  - destruct e0; unfold throw; intros H; injection H as _ <-; eauto.
  - discriminate.
Qed.

(** Once [fetchUrl] has returned, the handler answers with a success
    whose text is the prefix, the header and the paginated content. *)
Lemma fetch_tool_success (url : string) (max_length start_index : Z) (raw : bool)
  (urlObj : URL) (t : list event) (content prefix : string) :
  URL_new url = inr urlObj ->
  Js.array_includes ["http:"; "https:"] (protocol urlObj) = true ->
  fetchUrl url DEFAULT_USER_AGENT_AUTONOMOUS raw = (t, inr (content, prefix)) ->
  fetch_tool url max_length start_index raw
  = (t, {| text := prefix ++ header url
                   ++ render_page (paginate content start_index max_length);
           isError := false |}).
Proof.
  intros Hu Hp Hf. unfold fetch_tool, call, bind.
  rewrite Hu, Hp. cbn [negb]. rewrite Hf. unfold ret.
  rewrite List.app_nil_r, finalContent_render.
  unfold header. rewrite !append_assoc. reflexivity.
Qed.

End PipelineFacts.

Section HandlerClaims.

Context {net : Network} {libs : HtmlLibs}.

(** C3. A start index at or beyond the end of the rendered text selects
    the sentinel branch, and the handler returns the sentinel as the
    content of a successful response: the failure indicator is not set. *)
Theorem exhausted_is_success (url : string) (max_length start_index : Z) (raw : bool)
  (urlObj : URL) (t : list event) (content prefix : string) :
  URL_new url = inr urlObj ->
  Js.array_includes ["http:"; "https:"] (protocol urlObj) = true ->
  fetchUrl url DEFAULT_USER_AGENT_AUTONOMOUS raw = (t, inr (content, prefix)) ->
  Js.len content <= start_index ->
  paginate content start_index max_length = Exhausted /\
  finalContent content start_index max_length = NO_MORE_CONTENT /\
  fetch_tool url max_length start_index raw
  = (t, {| text := prefix ++ header url ++ NO_MORE_CONTENT; isError := false |}).
Proof.
  intros Hu Hp Hf Hs.
  pose proof (paginate_exhausted content start_index max_length Hs) as He.
  split; [exact He |]. split.
  - rewrite finalContent_render, He. reflexivity.
  - rewrite (fetch_tool_success _ _ _ _ _ _ _ _ Hu Hp Hf), He. reflexivity.
Qed.

(** C7. When the address parses to a scheme other than [http:] and
    [https:], the handler fails with the message that only HTTP and
    HTTPS are supported, and its trace is empty: no request was sent. *)
Theorem scheme_rejected (url : string) (max_length start_index : Z) (raw : bool)
  (urlObj : URL) :
  URL_new url = inr urlObj ->
  Js.array_includes ["http:"; "https:"] (protocol urlObj) = false ->
  fetch_tool url max_length start_index raw
  = ([], {| text := "Failed to fetch content: Only HTTP and HTTPS URLs are supported";
            isError := true |}).
Proof.
  intros Hu Hp. unfold fetch_tool, call, bind.
  rewrite Hu, Hp. reflexivity.
Qed.

(** C8. With [raw] set, the extraction libraries play no part: the
    only effect is the request, the content paginated is the body as
    received, by the block every path shares, under a prefix that is
    not empty; and a returned slice is the part of the body that begins
    at [start_index]. *)
Theorem raw_bypasses_extraction (url : string) (max_length start_index : Z)
  (response : Response) (pageRaw : string) :
  serves url response pageRaw ->
  let prefix := raw_prefix (header_or_empty (content_type response)) in
  fetch_tool url max_length start_index true
  = ([Request url DEFAULT_USER_AGENT_AUTONOMOUS],
     {| text := prefix ++ header url
                ++ render_page (paginate pageRaw start_index max_length);
        isError := false |}) /\
  prefix <> EmptyString /\
  (forall libs' : HtmlLibs,
      @fetch_tool net libs' url max_length start_index true
      = @fetch_tool net libs url max_length start_index true) /\
  (forall (slice : string) (continuation : option Z),
      0 <= start_index ->
      paginate pageRaw start_index max_length = Window slice continuation ->
      slice = String.substring (Z.to_nat start_index) (String.length slice) pageRaw) /\
  (forall (raw : bool) (t : list event) (content prefix' : string),
      fetchUrl url DEFAULT_USER_AGENT_AUTONOMOUS raw = (t, inr (content, prefix')) ->
      fetch_tool url max_length start_index raw
      = (t, {| text := prefix' ++ header url
                       ++ render_page (paginate content start_index max_length);
               isError := false |})).
Proof.
  intros [[urlObj [Hu Hp]] [Hf [Hok Hb]]] prefix.
  assert (Hraw : forall libs' : HtmlLibs,
             @fetch_tool net libs' url max_length start_index true
             = ([Request url DEFAULT_USER_AGENT_AUTONOMOUS],
                {| text := prefix ++ header url
                           ++ render_page (paginate pageRaw start_index max_length);
                   isError := false |})).
  { intros libs'.
    apply (@fetch_tool_success net libs' _ _ _ _ urlObj); try assumption.
    apply fetchUrl_raw; assumption. }
  split; [apply Hraw |]. split; [discriminate |]. split; [| split].
  - intros libs'. now rewrite !Hraw.
  - intros slice k Hs Hw.
    apply paginate_window_inv in Hw as (Hlt & -> & _ & _).
    apply slice_is_substring. lia.
  - intros raw t content prefix' Hfu.
    apply (fetch_tool_success _ _ _ _ _ _ _ _ Hu Hp Hfu).
Qed.

(** C10. An exception of the parser, of the extractor or of the
    converter is caught inside [extractContentFromHtml] and becomes the
    failure marker, which differs from the marker of a page without
    article; the tool call then succeeds, with the marker paginated as
    any other content. *)
Theorem extraction_exception_is_content (html : string) (e : exn) :
  stage_throws html e ->
  extractContentFromHtml html
  = ([ConsoleError "Error extracting content:" e],
     inr "<error>Failed to extract content from HTML</error>") /\
  EXTRACTION_FAILED <> PAGE_NOT_SIMPLIFIED /\
  forall (url : string) (response : Response) (max_length start_index : Z),
    serves url response html ->
    isPageHtml html (header_or_empty (content_type response)) = true ->
    fetch_tool url max_length start_index false
    = ([Request url DEFAULT_USER_AGENT_AUTONOMOUS;
        ConsoleError "Error extracting content:" e],
       {| text := header url
                  ++ render_page (paginate EXTRACTION_FAILED start_index max_length);
          isError := false |}).
Proof.
  intros Ht. pose proof (extract_catches html e Ht) as Hx.
  split; [exact Hx |]. split; [discriminate |].
  intros url response max_length start_index [[urlObj [Hu Hp]] [Hf [Hok Hb]]] Hh.
  rewrite (fetch_tool_success url max_length start_index false urlObj
             [Request url DEFAULT_USER_AGENT_AUTONOMOUS;
              ConsoleError "Error extracting content:" e]
             EXTRACTION_FAILED EmptyString Hu Hp).
  - reflexivity.
  - apply (fetchUrl_markup _ _ response html); assumption.
Qed.

End HandlerClaims.

(** ** Runs on the concrete platform *)

Lemma exhausted_is_success_witness :
  @URL_new Demo.net Demo.url = inr {| protocol := "http:" |} /\
  Js.array_includes ["http:"; "https:"] "http:" = true /\
  @fetchUrl Demo.net Demo.libs Demo.url DEFAULT_USER_AGENT_AUTONOMOUS false
  = ([Request Demo.url DEFAULT_USER_AGENT_AUTONOMOUS], inr (Demo.page, EmptyString)) /\
  Js.len Demo.page <= 5000 /\
  paginate Demo.page 5000 5000 = Exhausted /\
  finalContent Demo.page 5000 5000 = NO_MORE_CONTENT /\
  @fetch_tool Demo.net Demo.libs Demo.url 5000 5000 false
  = ([Request Demo.url DEFAULT_USER_AGENT_AUTONOMOUS],
     {| text := EmptyString ++ header Demo.url ++ NO_MORE_CONTENT; isError := false |}).
Proof.
  assert (H1 : @URL_new Demo.net Demo.url = inr {| protocol := "http:" |})
    by reflexivity.
  assert (H2 : Js.array_includes ["http:"; "https:"] "http:" = true) by reflexivity.
  assert (H3 : @fetchUrl Demo.net Demo.libs Demo.url DEFAULT_USER_AGENT_AUTONOMOUS false
               = ([Request Demo.url DEFAULT_USER_AGENT_AUTONOMOUS],
                  inr (Demo.page, EmptyString))) by reflexivity.
  assert (H4 : Js.len Demo.page <= 5000) by (unfold Js.len; simpl; lia).
  split; [exact H1 |]. split; [exact H2 |]. split; [exact H3 |]. split; [exact H4 |].
  exact (@exhausted_is_success Demo.net Demo.libs Demo.url 5000 5000 false
           {| protocol := "http:" |} _ Demo.page EmptyString H1 H2 H3 H4).
Defined.

Lemma scheme_rejected_witness :
  @URL_new Demo.net "ftp://example.com/file.txt" = inr {| protocol := "ftp:" |} /\
  Js.array_includes ["http:"; "https:"] "ftp:" = false /\
  @fetch_tool Demo.net Demo.libs "ftp://example.com/file.txt" 5000 0 false
  = ([], {| text := "Failed to fetch content: Only HTTP and HTTPS URLs are supported";
            isError := true |}).
Proof.
  assert (H1 : @URL_new Demo.net "ftp://example.com/file.txt"
               = inr {| protocol := "ftp:" |}) by reflexivity.
  assert (H2 : Js.array_includes ["http:"; "https:"] "ftp:" = false) by reflexivity.
  split; [exact H1 |]. split; [exact H2 |].
  exact (@scheme_rejected Demo.net Demo.libs "ftp://example.com/file.txt" 5000 0 false
           {| protocol := "ftp:" |} H1 H2).
Defined.

Lemma demo_serves : @serves Demo.net Demo.url Demo.response Demo.page.
Proof.
  split; [exists {| protocol := "http:" |}; split; reflexivity |].
  repeat split; reflexivity.
Defined.

Lemma raw_bypasses_extraction_witness :
  @serves Demo.net Demo.url Demo.response Demo.page /\
  @fetch_tool Demo.net Demo.libs Demo.url 10 6 true
  = ([Request Demo.url DEFAULT_USER_AGENT_AUTONOMOUS],
     {| text := raw_prefix "text/html" ++ header Demo.url
                ++ "<body><art" ++ truncation_notice 16;
        isError := false |}).
Proof.
  split; [exact demo_serves |].
  destruct (@raw_bypasses_extraction Demo.net Demo.libs Demo.url 10 6
              Demo.response Demo.page demo_serves) as [H _].
  rewrite H. reflexivity.
Defined.

Lemma demo_conversion_throws :
  @stage_throws Demo.broken_libs Demo.page (Error "conversion failed").
Proof.
  apply (@conversion_throws Demo.broken_libs Demo.page _ Demo.page
           (Some {| content := Some Demo.page |})); reflexivity.
Defined.

Lemma extraction_exception_is_content_witness :
  @stage_throws Demo.broken_libs Demo.page (Error "conversion failed") /\
  @serves Demo.net Demo.url Demo.response Demo.page /\
  isPageHtml Demo.page (header_or_empty (content_type Demo.response)) = true /\
  @fetch_tool Demo.net Demo.broken_libs Demo.url 5000 0 false
  = ([Request Demo.url DEFAULT_USER_AGENT_AUTONOMOUS;
      ConsoleError "Error extracting content:" (Error "conversion failed")],
     {| text := header Demo.url ++ "<error>Failed to extract content from HTML</error>";
        isError := false |}).
Proof.
  split; [exact demo_conversion_throws |]. split; [exact demo_serves |].
  split; [reflexivity |].
  destruct (@extraction_exception_is_content Demo.net Demo.broken_libs Demo.page
              (Error "conversion failed") demo_conversion_throws) as (_ & _ & H).
  rewrite (H Demo.url Demo.response 5000 0 demo_serves eq_refl).
  reflexivity.
Defined.

(** Three calls over a text of twelve units with a window of five walk
    the whole text: two full windows with a continuation, then the rest. *)
Example three_calls :
  paginate "abcdefghijkl" 0 5 = Window "abcde" (Some 5) /\
  paginate "abcdefghijkl" 5 5 = Window "fghij" (Some 10) /\
  paginate "abcdefghijkl" 10 5 = Window "kl" None /\
  paginate "abcdefghijkl" 12 5 = Exhausted.
Proof. repeat split; reflexivity. Qed.

Example notice_text :
  truncation_notice 5000
  = Js.nl ++ Js.nl ++
    "<error>Content truncated. Call the fetch tool with a start_index of 5000 to get more content.</error>".
Proof. reflexivity. Qed.

(** ** Further properties of the pagination block *)




(** X2. On integral arguments, with [start_index] at least 0 and
    [max_length] at least 1, a returned slice never exceeds the window
    and never runs past the text, and a response carries no
    continuation exactly when its slice reaches the end of the text. *)
Theorem no_continuation_iff_end (content : string) (start_index max_length : Z)
  (slice : string) (continuation : option Q) :
  0 <= start_index -> 1 <= max_length ->
  Num.paginate content (inject_Z start_index) (inject_Z max_length)
  = Num.Window slice continuation ->
  Js.len slice <= max_length /\
  start_index + Js.len slice <= Js.len content /\
  (continuation = None <-> start_index + Js.len slice = Js.len content).
Proof.
  intros Hs Hm Hp. rewrite paginate_integral in Hp.
  destruct (paginate content start_index max_length) as [| sl k] eqn:E;
    [discriminate |].
  injection Hp as -> <-.
  apply paginate_window_inv in E as (Hlt & E & _ & Hk).
  assert (L : Js.len slice = Z.min max_length (Js.len content - start_index))
    by (rewrite E; apply len_slice_in_range; lia).
  repeat split; try lia.
  - intros Hn. destruct k as [n |]; [discriminate |].
    destruct (Z.eqb_spec (Js.len slice) max_length);
      destruct (Z.gtb_spec (Js.len content - (start_index + Js.len slice)) 0);
      simpl in Hk; try discriminate; lia.
  - intros Hend. rewrite Hk.
    destruct (Z.gtb_spec (Js.len content - (start_index + Js.len slice)) 0); [lia |].
    now rewrite andb_false_r.
Qed.

Lemma no_continuation_iff_end_witness :
  0 <= 10 /\ 1 <= 5 /\
  Num.paginate "abcdefghijkl" (inject_Z 10) (inject_Z 5) = Num.Window "kl" None /\
  Js.len "kl" <= 5 /\
  10 + Js.len "kl" <= Js.len "abcdefghijkl" /\
  (@None Q = None <-> 10 + Js.len "kl" = Js.len "abcdefghijkl").
Proof.
  assert (H1 : 0 <= 10) by lia.
  assert (H2 : 1 <= 5) by lia.
  assert (H3 : Num.paginate "abcdefghijkl" (inject_Z 10) (inject_Z 5)
               = Num.Window "kl" None) by reflexivity.
  split; [exact H1 |]. split; [exact H2 |]. split; [exact H3 |].
  exact (no_continuation_iff_end "abcdefghijkl" 10 5 "kl" None H1 H2 H3).
Defined.

(** X15. When [max_length] is not an integer, which the schema allows,
    no response carries a continuation, whatever text remains: the
    length of a slice is never strictly equal to such a number. *)
Theorem fractional_window_never_continues (content : string) (start_index max_length : Q)
  (slice : string) (continuation : option Q) :
  Num.isInteger max_length = false ->
  Num.paginate content start_index max_length = Num.Window slice continuation ->
  continuation = None.
Proof.
  intros Hf. unfold Num.paginate.
  destruct (Qle_bool _ start_index); [discriminate |].
  destruct (negb _); [discriminate |].
  destruct (Qeq_bool _ max_length) eqn:E; simpl.
  - exfalso. apply Qeq_bool_eq in E.
    unfold Num.isInteger in Hf. apply Qeq_bool_neq in Hf. apply Hf.
    rewrite <- E at 2. rewrite Qfloor_Z. symmetry. exact E.
  - intros H. now injection H.
Qed.

Lemma fractional_window_never_continues_witness :
  Num.isInteger (5 # 2) = false /\
  Num.schema_max_length (5 # 2) = true /\
  Num.paginate "abcdefghij" 0 (5 # 2) = Num.Window "ab" None /\
  @None Q = None.
Proof.
  assert (H1 : Num.isInteger (5 # 2) = false) by reflexivity.
  assert (H2 : Num.paginate "abcdefghij" 0 (5 # 2) = Num.Window "ab" None)
    by reflexivity.
  split; [exact H1 |]. split; [reflexivity |]. split; [exact H2 |].
  exact (fractional_window_never_continues "abcdefghij" 0 (5 # 2) "ab" None H1 H2).
Defined.

(** X3. On arguments the input schema accepts, the sentinel is returned
    exactly when the start index is at or beyond the end of the text. *)
Theorem sentinel_iff_out_of_range (content : string) (start_index max_length : Z) :
  schema_max_length max_length = true ->
  schema_start_index start_index = true ->
  (paginate content start_index max_length = Exhausted
   <-> Js.len content <= start_index).
Proof.
  unfold schema_max_length, schema_start_index. intros Hm Hs.
  apply andb_true_iff in Hm as [Hm _].
  apply Z.leb_le in Hm. apply Z.leb_le in Hs.
  split.
  - intros He. destruct (Z.le_gt_cases (Js.len content) start_index) as [? | Hlt];
      [assumption |].
    destruct (paginate_in_range content start_index max_length) as [_ Hp]; try lia.
    rewrite Hp in He. discriminate.
  - apply paginate_exhausted.
Qed.

Lemma sentinel_iff_out_of_range_witness :
  schema_max_length 5000 = true /\
  schema_start_index 3 = true /\
  (paginate "abc" 3 5000 = Exhausted <-> Js.len "abc" <= 3).
Proof.
  split; [reflexivity |]. split; [reflexivity |].
  exact (sentinel_iff_out_of_range "abc" 3 5000 eq_refl eq_refl).
Defined.

(** ** Further properties of the pipeline and the handler *)

Section PipelineOutcomes.

Context {net : Network} {libs : HtmlLibs}.

(** The outcomes of [fetchUrl], one per path through its body. *)
Lemma fetchUrl_fetch_throws (url userAgent : string) (forceRaw : bool) (e : exn) :
  fetch url userAgent = inl e ->
  fetchUrl url userAgent forceRaw
  = ([Request url userAgent],
     inl (Error ("Failed to fetch " ++ url ++ ": " ++ cause_of e))).
Proof.
  intros Hf. unfold fetchUrl, try_catch, bind, emit, call. rewrite Hf.
  destruct e; reflexivity.
Qed.

Lemma fetchUrl_status (url userAgent : string) (forceRaw : bool) (response : Response) :
  fetch url userAgent = inr response ->
  ok response = false ->
  fetchUrl url userAgent forceRaw
  = ([Request url userAgent],
     inl (Error ("Failed to fetch " ++ url ++ ": " ++
                 ("Failed to fetch " ++ url ++ " - status code "
                  ++ Js.show_number (status response))))).
Proof.
  intros Hf Hok. unfold fetchUrl, try_catch, bind, emit, call. rewrite Hf, Hok.
  reflexivity.
Qed.

Lemma fetchUrl_body_throws (url userAgent : string) (forceRaw : bool)
  (response : Response) (e : exn) :
  fetch url userAgent = inr response ->
  ok response = true ->
  body response = inl e ->
  fetchUrl url userAgent forceRaw
  = ([Request url userAgent],
     inl (Error ("Failed to fetch " ++ url ++ ": " ++ cause_of e))).
Proof.
  intros Hf Hok Hb. unfold fetchUrl, try_catch, bind, emit, call. rewrite Hf, Hok.
  cbn [negb]. rewrite Hb. destruct e; reflexivity.
Qed.

Lemma fetchUrl_other (url userAgent : string) (forceRaw : bool)
  (response : Response) (pageRaw : string) :
  fetch url userAgent = inr response ->
  ok response = true ->
  body response = inr pageRaw ->
  isPageHtml pageRaw (header_or_empty (content_type response)) = false ->
  fetchUrl url userAgent forceRaw
  = ([Request url userAgent],
     inr (pageRaw, raw_prefix (header_or_empty (content_type response)))).
Proof.
  intros Hf Hok Hb Hh. unfold fetchUrl, try_catch, bind, emit, call.
  rewrite Hf, Hok. cbn [negb]. rewrite Hb, Hh. reflexivity.
Qed.

(** The trace of [extractContentFromHtml] is empty or one error log. *)
Lemma extract_trace (html : string) :
  exists content : string,
    extractContentFromHtml html = ([], inr content) \/
    exists e : exn,
      stage_throws html e /\
      extractContentFromHtml html
      = ([ConsoleError "Error extracting content:" e], inr content).
Proof.
  destruct (JSDOM_new html) as [e | doc] eqn:Hd.
  { exists EXTRACTION_FAILED. right. exists e.
    assert (Ht : stage_throws html e) by (apply parsing_throws; exact Hd).
    split; [exact Ht | apply extract_catches; exact Ht]. }
  destruct (Readability_parse doc) as [e | article] eqn:Hr.
  { exists EXTRACTION_FAILED. right. exists e.
    assert (Ht : stage_throws html e) by (apply (extraction_throws _ _ doc); assumption).
    split; [exact Ht | apply extract_catches; exact Ht]. }
  destruct (no_article_content article) eqn:Ha.
  { exists PAGE_NOT_SIMPLIFIED. left.
    unfold extractContentFromHtml, try_catch, bind, call. rewrite Hd, Hr, Ha.
    reflexivity. }
  destruct (turndown (article_content article)) as [e | markdown] eqn:Ht.
  { exists EXTRACTION_FAILED. right. exists e.
    assert (Hs : stage_throws html e)
      by (apply (conversion_throws _ _ doc article); assumption).
    split; [exact Hs | apply extract_catches; exact Hs]. }
  exists markdown. left.
  unfold extractContentFromHtml, try_catch, bind, call. rewrite Hd, Hr, Ha.
  unfold bind. rewrite Ht. reflexivity.
Qed.

(** Every run of [fetchUrl] makes the request first and ends in one of
    three ways: it throws an [Error], it returns extracted content
    without prefix, or it returns the body with the prefix. *)
Lemma fetchUrl_outcome (url userAgent : string) (forceRaw : bool) :
  exists t : list event,
    (t = [] \/ exists e : exn, t = [ConsoleError "Error extracting content:" e]) /\
    ((exists message : string,
         t = [] /\
         fetchUrl url userAgent forceRaw
         = ([Request url userAgent], inl (Error message))) \/
     (exists content : string,
         fetchUrl url userAgent forceRaw
         = (Request url userAgent :: t, inr (content, EmptyString))) \/
     (exists content contentType : string,
         t = [] /\
         fetchUrl url userAgent forceRaw
         = ([Request url userAgent], inr (content, raw_prefix contentType)))).
Proof.
  destruct (fetch url userAgent) as [e | response] eqn:Hf.
  { exists []. split; [now left |]. left. eexists. split; [reflexivity |].
    apply fetchUrl_fetch_throws; exact Hf. }
  destruct (ok response) eqn:Hok.
  2: { exists []. split; [now left |]. left. eexists. split; [reflexivity |].
       apply (fetchUrl_status _ _ _ response); eassumption. }
  destruct (body response) as [e | pageRaw] eqn:Hb.
  { exists []. split; [now left |]. left. eexists. split; [reflexivity |].
    apply (fetchUrl_body_throws _ _ _ response); eassumption. }
  destruct (isPageHtml pageRaw (header_or_empty (content_type response))) eqn:Hh.
  2: { exists []. split; [now left |]. right. right. do 2 eexists.
       split; [reflexivity |]. apply (fetchUrl_other _ _ _ response); eassumption. }
  destruct forceRaw.
  { exists []. split; [now left |]. right. right. do 2 eexists.
    split; [reflexivity |]. apply (fetchUrl_raw _ _ response); eassumption. }
  destruct (extract_trace pageRaw) as [content [Hx | [e [_ Hx]]]].
  - exists []. split; [now left |]. right. left. exists content.
    apply (fetchUrl_markup _ _ response pageRaw); assumption.
  - exists [ConsoleError "Error extracting content:" e].
    split; [right; eauto |]. right. left. exists content.
    apply (fetchUrl_markup _ _ response pageRaw); assumption.
Qed.

(** When [fetchUrl] throws, the handler answers with a failure that
    carries the message. *)
Lemma fetch_tool_failure (url : string) (max_length start_index : Z) (raw : bool)
  (t : list event) (message : string) :
  accepted url ->
  fetchUrl url DEFAULT_USER_AGENT_AUTONOMOUS raw = (t, inl (Error message)) ->
  fetch_tool url max_length start_index raw
  = (t, {| text := "Failed to fetch content: " ++ message; isError := true |}).
Proof.
  intros [urlObj [Hu Hp]] Hf. unfold fetch_tool, call, bind.
  rewrite Hu, Hp. cbn [negb]. rewrite Hf. reflexivity.
Qed.

End PipelineOutcomes.

Section HandlerProperties.

Context {net : Network} {libs : HtmlLibs}.

(** X4. A response whose status is outside 200-299 makes the tool fail
    after the one request: the message names the address twice, because
    the status error is thrown inside the [try] of [fetchUrl] and wrapped
    by its own [catch], and ends with the status code. *)
Theorem status_error_reported (url : string) (max_length start_index : Z) (raw : bool)
  (response : Response) :
  accepted url ->
  fetch url DEFAULT_USER_AGENT_AUTONOMOUS = inr response ->
  ok response = false ->
  fetch_tool url max_length start_index raw
  = ([Request url DEFAULT_USER_AGENT_AUTONOMOUS],
     {| text := "Failed to fetch content: Failed to fetch " ++ url
                ++ ": Failed to fetch " ++ url ++ " - status code "
                ++ Js.show_number (status response);
        isError := true |}).
Proof.
  intros Ha Hf Hok.
  rewrite (fetch_tool_failure url max_length start_index raw _ _ Ha
             (fetchUrl_status url _ raw response Hf Hok)).
  reflexivity.
Qed.

(** X5. When [fetch] itself throws, or reading the body of a successful
    response throws, the tool fails after the one request with
    [Failed to fetch content: Failed to fetch <url>: <cause>]. *)
Theorem transport_error_reported (url : string) (max_length start_index : Z) (raw : bool)
  (e : exn) :
  accepted url ->
  (fetch url DEFAULT_USER_AGENT_AUTONOMOUS = inl e \/
   exists response : Response,
     fetch url DEFAULT_USER_AGENT_AUTONOMOUS = inr response /\
     ok response = true /\ body response = inl e) ->
  fetch_tool url max_length start_index raw
  = ([Request url DEFAULT_USER_AGENT_AUTONOMOUS],
     {| text := "Failed to fetch content: Failed to fetch " ++ url ++ ": " ++ cause_of e;
        isError := true |}).
Proof.
  intros Ha [Hf | [response [Hf [Hok Hb]]]].
  - rewrite (fetch_tool_failure url max_length start_index raw _ _ Ha
               (fetchUrl_fetch_throws url _ raw e Hf)).
    reflexivity.
  - rewrite (fetch_tool_failure url max_length start_index raw _ _ Ha
               (fetchUrl_body_throws url _ raw response e Hf Hok Hb)).
    reflexivity.
Qed.

(** X7. Whatever the platform does, the handler calls [fetch] once,
    with the address as given and the autonomous user agent, when the
    address is accepted, and does not call it at all otherwise: no path
    retries or asks for a second address. *)
Theorem at_most_one_request (url : string) (max_length start_index : Z) (raw : bool) :
  let calls := requests (fst (fetch_tool url max_length start_index raw)) in
  (accepted url /\ calls = [(url, DEFAULT_USER_AGENT_AUTONOMOUS)]) \/
  (~ accepted url /\ calls = []).
Proof.
  destruct (URL_new url) as [e | urlObj] eqn:Hu.
  { right. split; [intros [u [Hu' _]]; congruence |].
    unfold fetch_tool, call, bind. rewrite Hu. reflexivity. }
  destruct (Js.array_includes ["http:"; "https:"] (protocol urlObj)) eqn:Hp.
  2: { right. split; [intros [u [Hu' Hp']]; congruence |].
       unfold fetch_tool, call, bind. rewrite Hu, Hp. reflexivity. }
  assert (Ha : accepted url) by (exists urlObj; split; assumption).
  left. split; [exact Ha |].
  destruct (fetchUrl_outcome url DEFAULT_USER_AGENT_AUTONOMOUS raw)
    as [t [Ht [[message [-> Hf]] | [[content Hf] | [content [ct [-> Hf]]]]]]]; simpl.
  - rewrite (fetch_tool_failure _ max_length start_index _ _ _ Ha Hf). reflexivity.
  - rewrite (fetch_tool_success _ max_length start_index _ _ _ _ _ Hu Hp Hf).
    destruct Ht as [-> | [e ->]]; reflexivity.
  - rewrite (fetch_tool_success _ max_length start_index _ _ _ _ _ Hu Hp Hf).
    reflexivity.
Qed.

(** X8. The failure indicator depends on retrieval alone: a call
    succeeds exactly when the address is accepted, the status is in
    200-299 and the body can be read.  No outcome of extraction or of
    pagination turns a retrieved page into a failure. *)
Theorem success_iff_served (url : string) (max_length start_index : Z) (raw : bool) :
  isError (snd (fetch_tool url max_length start_index raw)) = false
  <-> exists (response : Response) (pageRaw : string), serves url response pageRaw.
Proof.
  split.
  - intros H.
    destruct (URL_new url) as [e | urlObj] eqn:Hu.
    { unfold fetch_tool, call, bind in H. rewrite Hu in H. discriminate. }
    destruct (Js.array_includes ["http:"; "https:"] (protocol urlObj)) eqn:Hp.
    2: { unfold fetch_tool, call, bind in H. rewrite Hu, Hp in H. discriminate. }
    assert (Ha : accepted url) by (exists urlObj; split; assumption).
    destruct (fetch url DEFAULT_USER_AGENT_AUTONOMOUS) as [e | response] eqn:Hf.
    { rewrite (fetch_tool_failure _ max_length start_index _ _ _ Ha
                 (fetchUrl_fetch_throws url _ raw e Hf)) in H. discriminate. }
    destruct (ok response) eqn:Hok.
    2: { rewrite (fetch_tool_failure _ max_length start_index _ _ _ Ha
                    (fetchUrl_status url _ raw response Hf Hok)) in H. discriminate. }
    destruct (body response) as [e | pageRaw] eqn:Hb.
    { rewrite (fetch_tool_failure _ max_length start_index _ _ _ Ha
                 (fetchUrl_body_throws url _ raw response e Hf Hok Hb)) in H.
      discriminate. }
    exists response, pageRaw. repeat split; assumption.
  - intros [response [pageRaw [[urlObj [Hu Hp]] [Hf [Hok Hb]]]]].
    destruct (fetchUrl_outcome url DEFAULT_USER_AGENT_AUTONOMOUS raw)
      as [t [_ [[message [_ Hx]] | [[content Hx] | [content [ct [_ Hx]]]]]]].
    + exfalso.
      destruct (isPageHtml pageRaw (header_or_empty (content_type response))) eqn:Hh.
      * destruct raw.
        -- rewrite (fetchUrl_raw _ _ response pageRaw Hf Hok Hb) in Hx. discriminate.
        -- destruct (extract_never_throws pageRaw) as [t' [c Hc]].
           rewrite (fetchUrl_markup _ _ response pageRaw t' c Hf Hok Hb Hh Hc) in Hx.
           discriminate.
      * rewrite (fetchUrl_other _ _ raw response pageRaw Hf Hok Hb Hh) in Hx.
        discriminate.
    + rewrite (fetch_tool_success _ max_length start_index _ _ _ _ _ Hu Hp Hx).
      reflexivity.
    + rewrite (fetch_tool_success _ max_length start_index _ _ _ _ _ Hu Hp Hx).
      reflexivity.
Qed.

End HandlerProperties.

Section ExtractionProperties.

Context {net : Network} {libs : HtmlLibs}.

(** X9. When the extractor finds no article, or one without content,
    [extractContentFromHtml] returns the page-not-simplified marker,
    whatever the converter would do, and the tool succeeds with that
    marker as paginated content under an empty prefix. *)
Theorem no_article_is_content (html : string) (doc : Document) (article : option Article)
  (url : string) (response : Response) (max_length start_index : Z) :
  JSDOM_new html = inr doc ->
  Readability_parse doc = inr article ->
  no_article_content article = true ->
  serves url response html ->
  isPageHtml html (header_or_empty (content_type response)) = true ->
  snd (extractContentFromHtml html)
  = inr "<error>Page failed to be simplified from HTML</error>" /\
  snd (fetch_tool url max_length start_index false)
  = {| text := header url
               ++ render_page (paginate PAGE_NOT_SIMPLIFIED start_index max_length);
       isError := false |}.
Proof.
  intros Hd Hr Ha [[urlObj [Hu Hp]] [Hf [Hok Hb]]] Hh.
  assert (Hx : extractContentFromHtml html = ([], inr PAGE_NOT_SIMPLIFIED)).
  { unfold extractContentFromHtml, try_catch, bind, call. rewrite Hd, Hr, Ha.
    reflexivity. }
  split; [rewrite Hx; reflexivity |].
  rewrite (fetch_tool_success url max_length start_index false urlObj
             [Request url DEFAULT_USER_AGENT_AUTONOMOUS]
             PAGE_NOT_SIMPLIFIED EmptyString Hu Hp).
  - reflexivity.
  - apply (fetchUrl_markup _ _ response html); assumption.
Qed.

(** X10. When the three stages succeed on a page classified as markup,
    the tool succeeds, and the text the converter returns for the
    article's content is what it paginates, under an empty prefix. *)
Theorem markdown_is_paginated (html : string) (doc : Document) (article : option Article)
  (markdown url : string) (response : Response) (max_length start_index : Z) :
  JSDOM_new html = inr doc ->
  Readability_parse doc = inr article ->
  no_article_content article = false ->
  turndown (article_content article) = inr markdown ->
  serves url response html ->
  isPageHtml html (header_or_empty (content_type response)) = true ->
  snd (fetch_tool url max_length start_index false)
  = {| text := header url ++ render_page (paginate markdown start_index max_length);
       isError := false |}.
Proof.
  intros Hd Hr Ha Ht [[urlObj [Hu Hp]] [Hf [Hok Hb]]] Hh.
  assert (Hx : extractContentFromHtml html = ([], inr markdown)).
  { unfold extractContentFromHtml, try_catch, bind, call. rewrite Hd, Hr, Ha.
    unfold bind. rewrite Ht. reflexivity. }
  rewrite (fetch_tool_success url max_length start_index false urlObj
             [Request url DEFAULT_USER_AGENT_AUTONOMOUS]
             markdown EmptyString Hu Hp).
  - reflexivity.
  - apply (fetchUrl_markup _ _ response html); assumption.
Qed.

(** X11. [extractContentFromHtml] never throws, and the line of its
    own [catch] clause, [Error extracting content:] with the error
    caught, is written exactly when one of the stages it runs throws
    that error. *)
Theorem extract_logs_iff_throws (html : string) :
  (exists content : string, snd (extractContentFromHtml html) = inr content) /\
  (forall e : exn,
      In (ConsoleError "Error extracting content:" e)
         (fst (extractContentFromHtml html))
      <-> stage_throws html e).
Proof.
  split.
  - destruct (extract_never_throws html) as [t [content E]].
    exists content. rewrite E. reflexivity.
  - intros e. split.
    + intros Hin. destruct (extract_trace html) as [content [E | [e' [Ht E]]]].
      * rewrite E in Hin. contradiction.
      * rewrite E in Hin. destruct Hin as [Heq | []].
        injection Heq as <-. exact Ht.
    + intros Ht. rewrite (extract_catches html e Ht). left. reflexivity.
Qed.

(** X12. A page served without a content type, or with one that
    contains [text/html], goes through extraction whatever its body
    looks like, unless [raw] is asked for: [fetchUrl] returns the
    extracted content with an empty prefix. *)
Theorem undeclared_or_html_is_extracted (url : string) (response : Response)
  (pageRaw : string) (t : list event) (content : string) :
  serves url response pageRaw ->
  header_or_empty (content_type response) = EmptyString \/
  Js.includes (header_or_empty (content_type response)) "text/html" = true ->
  extractContentFromHtml pageRaw = (t, inr content) ->
  fetchUrl url DEFAULT_USER_AGENT_AUTONOMOUS false
  = (Request url DEFAULT_USER_AGENT_AUTONOMOUS :: t, inr (content, EmptyString)).
Proof.
  intros [_ [Hf [Hok Hb]]] Hct Hx.
  apply (fetchUrl_markup _ _ response pageRaw); try assumption.
  unfold isPageHtml. destruct Hct as [-> | ->].
  - apply orb_true_r.
  - rewrite orb_true_r. reflexivity.
Qed.

(** X14. A page that is not classified as markup is passed through as
    received, under the prefix that names its content type, and the
    [raw] flag makes no difference to the result. *)
Theorem other_content_passthrough (url : string) (response : Response) (pageRaw : string)
  (max_length start_index : Z) (raw : bool) :
  serves url response pageRaw ->
  isPageHtml pageRaw (header_or_empty (content_type response)) = false ->
  fetch_tool url max_length start_index raw
  = ([Request url DEFAULT_USER_AGENT_AUTONOMOUS],
     {| text := raw_prefix (header_or_empty (content_type response)) ++ header url
                ++ render_page (paginate pageRaw start_index max_length);
        isError := false |}).
Proof.
  intros [[urlObj [Hu Hp]] [Hf [Hok Hb]]] Hh.
  apply (fetch_tool_success _ _ _ _ urlObj); try assumption.
  apply (fetchUrl_other _ _ _ response); assumption.
Qed.

End ExtractionProperties.

Lemma prefix_inv (p : string) :
  forall s : string, String.prefix p s = true -> exists b : string, s = p ++ b.
Proof.
  induction p as [| a p IH]; intros s H.
  - exists s. reflexivity.
  - destruct s as [| x s]; simpl in H; [discriminate |].
    destruct (ascii_dec a x) as [-> | _]; [| discriminate].
    destruct (IH s H) as [b ->]. exists b. reflexivity.
Qed.

Lemma includes_inv (s pat : string) :
  Js.includes s pat = true -> exists a b : string, s = a ++ pat ++ b.
Proof.
  induction s as [| x s IH]; intros H.
  - change (String.prefix pat EmptyString || false = true) in H.
    rewrite orb_false_r in H. apply prefix_inv in H as [b ->].
    exists EmptyString, b. reflexivity.
  - change (String.prefix pat (String x s) || Js.includes s pat = true) in H.
    apply orb_true_iff in H as [H | H].
    + apply prefix_inv in H as [b ->]. exists EmptyString, b. reflexivity.
    + destruct (IH H) as [a [b ->]]. exists (String x a), b. reflexivity.
Qed.

Lemma substring_0_rest (s : string) :
  forall n : nat, exists rest : string, s = String.substring 0 n s ++ rest.
Proof.
  induction s as [| x s IH]; intros [| n]; simpl.
  - exists EmptyString. reflexivity.
  - exists EmptyString. reflexivity.
  - eexists. reflexivity.
  - destruct (IH n) as [rest E]. exists rest. now rewrite <- E.
Qed.

(** X13. The body rule of the classifier is local to the head of the
    page: it fires only if a whole [<html] opener lies within the first
    hundred units of the body. *)
Theorem opener_within_first_100 (pageRaw : string) :
  Js.includes (Js.substring pageRaw 0 100) "<html" = true ->
  exists before after : string,
    pageRaw = before ++ "<html" ++ after /\
    Js.len before + Js.len "<html" <= 100.
Proof.
  intros H. rewrite substring_first_100 in H.
  pose proof (length_substring pageRaw 0 100) as L.
  apply includes_inv in H as [a [b E]].
  destruct (substring_0_rest pageRaw 100) as [rest R].
  exists a, (b ++ rest). split.
  - rewrite R at 1. rewrite E. now rewrite !append_assoc.
  - rewrite E in L. rewrite !length_append in L.
    change (String.length "<html") with 5%nat in L.
    unfold Js.len. change (String.length "<html") with 5%nat. lia.
Qed.

(** ** Further runs on the concrete platform *)

Lemma demo_accepted (outcome : exn + Response) :
  @accepted (Demo.answering outcome) Demo.url.
Proof. exists {| protocol := "http:" |}. split; reflexivity. Defined.

Lemma demo_answering_serves (response : Response) (pageRaw : string) :
  ok response = true -> body response = inr pageRaw ->
  @serves (Demo.answering (inr response)) Demo.url response pageRaw.
Proof.
  intros Hok Hb. split; [apply demo_accepted |].
  split; [reflexivity |]. split; assumption.
Defined.

Lemma status_error_reported_witness :
  @accepted (Demo.answering (inr Demo.not_found)) Demo.url /\
  ok Demo.not_found = false /\
  @fetch_tool (Demo.answering (inr Demo.not_found)) Demo.libs Demo.url 5000 0 false
  = ([Request Demo.url DEFAULT_USER_AGENT_AUTONOMOUS],
     {| text := "Failed to fetch content: Failed to fetch http://example.com/: Failed to fetch http://example.com/ - status code 404";
        isError := true |}).
Proof.
  split; [apply demo_accepted |]. split; [reflexivity |].
  rewrite (@status_error_reported (Demo.answering (inr Demo.not_found)) Demo.libs
             Demo.url 5000 0 false Demo.not_found
             (demo_accepted _) eq_refl eq_refl).
  reflexivity.
Defined.

Lemma transport_error_reported_witness :
  @accepted (Demo.answering (inl (Error "fetch failed"))) Demo.url /\
  @fetch_tool (Demo.answering (inl (Error "fetch failed"))) Demo.libs Demo.url 5000 0 false
  = ([Request Demo.url DEFAULT_USER_AGENT_AUTONOMOUS],
     {| text := "Failed to fetch content: Failed to fetch http://example.com/: fetch failed";
        isError := true |}).
Proof.
  split; [apply demo_accepted |].
  rewrite (@transport_error_reported (Demo.answering (inl (Error "fetch failed")))
             Demo.libs Demo.url 5000 0 false (Error "fetch failed")
             (demo_accepted _) (or_introl eq_refl)).
  reflexivity.
Defined.

Lemma no_article_is_content_witness :
  @serves Demo.net Demo.url Demo.response Demo.page /\
  @no_article_content None = true /\
  snd (@fetch_tool Demo.net Demo.no_article_libs Demo.url 5000 0 false)
  = {| text := header Demo.url ++ "<error>Page failed to be simplified from HTML</error>";
       isError := false |}.
Proof.
  split; [exact demo_serves |]. split; [reflexivity |].
  destruct (@no_article_is_content Demo.net Demo.no_article_libs Demo.page Demo.page None
              Demo.url Demo.response 5000 0 eq_refl eq_refl eq_refl demo_serves eq_refl)
    as [_ H].
  rewrite H. reflexivity.
Defined.

Lemma markdown_is_paginated_witness :
  @serves Demo.net Demo.url Demo.response Demo.page /\
  snd (@fetch_tool Demo.net Demo.libs Demo.url 20 0 false)
  = {| text := header Demo.url ++ "<html><body><article" ++ truncation_notice 20;
       isError := false |}.
Proof.
  split; [exact demo_serves |].
  rewrite (@markdown_is_paginated Demo.net Demo.libs Demo.page Demo.page
             (Some {| content := Some Demo.page |}) Demo.page Demo.url Demo.response 20 0
             eq_refl eq_refl eq_refl eq_refl demo_serves eq_refl).
  reflexivity.
Defined.

Lemma undeclared_or_html_is_extracted_witness :
  @serves (Demo.answering (inr Demo.undeclared)) Demo.url Demo.undeclared "plain words" /\
  header_or_empty (content_type Demo.undeclared) = EmptyString /\
  @extractContentFromHtml Demo.libs "plain words" = ([], inr "plain words") /\
  @fetchUrl (Demo.answering (inr Demo.undeclared)) Demo.libs
    Demo.url DEFAULT_USER_AGENT_AUTONOMOUS false
  = ([Request Demo.url DEFAULT_USER_AGENT_AUTONOMOUS], inr ("plain words", EmptyString)).
Proof.
  assert (Hs : @serves (Demo.answering (inr Demo.undeclared)) Demo.url
                 Demo.undeclared "plain words")
    by (apply demo_answering_serves; reflexivity).
  split; [exact Hs |]. split; [reflexivity |]. split; [reflexivity |].
  exact (@undeclared_or_html_is_extracted (Demo.answering (inr Demo.undeclared)) Demo.libs
           Demo.url Demo.undeclared "plain words" [] "plain words"
           Hs (or_introl eq_refl) eq_refl).
Defined.

Lemma other_content_passthrough_witness :
  @serves (Demo.answering (inr Demo.json)) Demo.url Demo.json "[1, 2, 3]" /\
  isPageHtml "[1, 2, 3]" (header_or_empty (content_type Demo.json)) = false /\
  @fetch_tool (Demo.answering (inr Demo.json)) Demo.libs Demo.url 5000 0 false
  = ([Request Demo.url DEFAULT_USER_AGENT_AUTONOMOUS],
     {| text := raw_prefix "application/json" ++ header Demo.url ++ "[1, 2, 3]";
        isError := false |}).
Proof.
  assert (Hs : @serves (Demo.answering (inr Demo.json)) Demo.url Demo.json "[1, 2, 3]")
    by (apply demo_answering_serves; reflexivity).
  split; [exact Hs |]. split; [reflexivity |].
  rewrite (@other_content_passthrough (Demo.answering (inr Demo.json)) Demo.libs
             Demo.url Demo.json "[1, 2, 3]" 5000 0 false Hs eq_refl).
  reflexivity.
Defined.

Lemma opener_within_first_100_witness :
  Js.includes (Js.substring Demo.page 0 100) "<html" = true /\
  exists before after : string,
    Demo.page = before ++ "<html" ++ after /\
    Js.len before + Js.len "<html" <= 100.
Proof.
  split; [reflexivity |].
  exact (opener_within_first_100 Demo.page eq_refl).
Defined.
